(** * Procure-Smart: [static/js/single_comp.js]

    A shallow embedding of the page script that renders the comparison
    toolbars, creates the two placeholder charts and offers the two chart
    utilities [downloadChart] and [expandChart].

    The script talks to three collaborators that live outside of it: the
    document (looked up by element id), the charting library ([new Chart])
    and the browser (downloads, fullscreen).  They are modelled by a small
    host state: the elements of the document keyed by id, the elements that
    were created but never attached, and the log of the actions the host was
    asked to perform.  Script code is written in a state-and-exception monad
    over that host state. *)

From Stdlib Require Import ZArith Lia List Ascii String.
From stdpp Require Import base option list strings gmap.

Set Warnings "-register-all".

Open Scope string_scope.
Open Scope Z_scope.

(** ** JavaScript values (object literals) *)

Module JS.

(** The literals that occur in the script: numbers (all of them integers),
    strings, booleans, array literals and object literals.  An object literal
    keeps its properties in the order they are written. *)
Inductive jsval : Type :=
| JUndef
| JNum (n : Z)
| JStr (s : string)
| JBool (b : bool)
| JArr (xs : list jsval)
| JObj (fields : list (string * jsval)).

(** Property lookup in a property list; of two properties with the same key
    the later one wins, as in an object literal. *)
Fixpoint assoc (k : string) (fs : list (string * jsval)) : option jsval :=
  match fs with
  | [] => None
  | (k', v) :: rest =>
      match assoc k rest with
      | Some w => Some w
      | None => if String.eqb k k' then Some v else None
      end
  end.

(** [v.k]: a property that is not there (or a read from a primitive) is
    [undefined]. *)
Definition get (k : string) (v : jsval) : jsval :=
  match v with
  | JObj fs => default JUndef (assoc k fs)
  | _ => JUndef
  end.

(** [v.k1.k2...], with [undefined] absorbing the rest of the path the way
    optional chaining would. *)
Fixpoint get_path (ks : list string) (v : jsval) : jsval :=
  match ks with
  | [] => v
  | k :: rest => get_path rest (get k v)
  end.

(** The elements of an array literal. *)
Definition elements (v : jsval) : option (list jsval) :=
  match v with
  | JArr xs => Some xs
  | _ => None
  end.

(** The point literal [{x: a, y: b}]. *)
Definition point (a b : Z) : jsval := JObj [("x", JNum a); ("y", JNum b)].

End JS.

(** ** The toolbar template *)

(** The double-quote character and the line feed. *)
Definition dq : string := String "034"%char EmptyString.
Definition nl : string := String "010"%char EmptyString.

(** [attr="value"], as written inside a tag. *)
Definition att (name value : string) : string :=
  name +:+ "=" +:+ dq +:+ value +:+ dq.

(** A template literal spanning several source lines: every line but the last
    is followed by a line feed. *)
Fixpoint template (lines : list string) : string :=
  match lines with
  | [] => ""
  | [l] => l
  | l :: rest => l +:+ nl +:+ template rest
  end.

(** [const toolbarHTML = `...`]: the text between the two backquotes.  The
    template opens and closes with a line break, hence the empty first and
    last lines. *)
Definition toolbarHTML : string :=
  template
    [ "";
      "  <label>Select Parameter</label>";
      "  <select " +:+ att "class" "form-select" +:+ ">";
      "    <option>Revenue</option>";
      "    <option>Profit</option>";
      "    <option>Employee Count</option>";
      "  </select>";
      "";
      "  <label>Preference</label>";
      "  <div " +:+ att "class" "btn-group" +:+ " " +:+ att "role" "group" +:+ ">";
      "    <button " +:+ att "class" "btn btn-outline-info" +:+ ">Prefer Higher Value</button>";
      "    <button " +:+ att "class" "btn btn-outline-info" +:+ ">Prefer Lower Value</button>";
      "  </div>";
      "";
      "  <label>Min Value</label>";
      "  <input " +:+ att "type" "number" +:+ " " +:+ att "class" "form-control"
        +:+ " " +:+ att "placeholder" "e.g. 10" +:+ ">";
      "";
      "  <label>Max Value</label>";
      "  <input " +:+ att "type" "number" +:+ " " +:+ att "class" "form-control"
        +:+ " " +:+ att "placeholder" "e.g. 1000" +:+ ">";
      "";
      "  <label>Number of Companies</label>";
      "  <input " +:+ att "type" "number" +:+ " " +:+ att "class" "form-control"
        +:+ " " +:+ att "min" "1" +:+ " " +:+ att "max" "25"
        +:+ " " +:+ att "placeholder" "Max 25" +:+ ">";
      "" ].

(** ** Reading markup

    What an [innerHTML] assignment makes of a markup string is the browser's
    business.  To speak about the controls a fragment contains, the fragment
    is read here by a reader for the part of HTML the template is written
    in: start tags with quoted or bare attributes, end tags, text, and
    elements that have no end tag ([input] and the like).  Names are taken as
    written (the template is all lower case); comments and character
    references, which the template does not use, are not treated. *)

Module Html.

Inductive token : Type :=
| TText (s : string)
| TOpen (name : string) (attrs : list (string * string))
| TClose (name : string).

Inductive node : Type :=
| Text (s : string)
| Elem (tag : string) (attrs : list (string * string)) (children : list node).

Definition is_space (c : ascii) : bool :=
  (c =? " ")%char || (c =? "009")%char || (c =? "010")%char
  || (c =? "012")%char || (c =? "013")%char.

Definition is_dq (c : ascii) : bool := (c =? "034")%char.

(** Characters are collected most recent first. *)
Definition str (collected : list ascii) : string :=
  string_of_list_ascii (rev collected).

(** *** Attributes of a start tag *)

Inductive ascan : Type :=
| ABetween
| AName (n : list ascii)
| AAfterEq (n : list ascii)
| AQuoted (n v : list ascii)
| ABare (n v : list ascii).

Fixpoint scan_attrs (st : ascan) (cs : list ascii) : list (string * string) :=
  match cs with
  | [] =>
      match st with
      | ABetween => []
      | AName n | AAfterEq n => [(str n, "")]
      | AQuoted n v | ABare n v => [(str n, str v)]
      end
  | c :: cs' =>
      match st with
      | ABetween =>
          if is_space c then scan_attrs ABetween cs'
          else scan_attrs (AName [c]) cs'
      | AName n =>
          if is_space c then (str n, "") :: scan_attrs ABetween cs'
          else if (c =? "=")%char then scan_attrs (AAfterEq n) cs'
          else scan_attrs (AName (c :: n)) cs'
      | AAfterEq n =>
          if is_dq c then scan_attrs (AQuoted n []) cs'
          else if is_space c then scan_attrs (AAfterEq n) cs'
          else scan_attrs (ABare n [c]) cs'
      | AQuoted n v =>
          if is_dq c then (str n, str v) :: scan_attrs ABetween cs'
          else scan_attrs (AQuoted n (c :: v)) cs'
      | ABare n v =>
          if is_space c then (str n, str v) :: scan_attrs ABetween cs'
          else scan_attrs (ABare n (c :: v)) cs'
      end
  end.

(** The leading name of a tag and what follows it. *)
Fixpoint split_name (cs : list ascii) : list ascii * list ascii :=
  match cs with
  | [] => ([], [])
  | c :: cs' =>
      if is_space c then ([], cs)
      else let '(n, rest) := split_name cs' in (c :: n, rest)
  end.

(** The token for what stands between [<] and [>]. *)
Definition make_tag (body : list ascii) : token :=
  match body with
  | "/"%char :: rest => TClose (string_of_list_ascii (fst (split_name rest)))
  | _ =>
      let '(n, rest) := split_name body in
      TOpen (string_of_list_ascii n) (scan_attrs ABetween rest)
  end.

(** *** Tokens *)

Inductive lmode : Type :=
| InText
| InTag (quoted : bool).

Definition flush_text (collected : list ascii) : list token :=
  match collected with
  | [] => []
  | _ => [TText (str collected)]
  end.

Fixpoint lex (m : lmode) (collected : list ascii) (cs : list ascii) : list token :=
  match cs with
  | [] =>
      match m with
      | InText => flush_text collected
      | InTag _ => []
      end
  | c :: cs' =>
      match m with
      | InText =>
          if (c =? "<")%char then flush_text collected ++ lex (InTag false) [] cs'
          else lex InText (c :: collected) cs'
      | InTag q =>
          if is_dq c then lex (InTag (negb q)) (c :: collected) cs'
          else if (c =? ">")%char && negb q
               then make_tag (rev collected) :: lex InText [] cs'
               else lex (InTag q) (c :: collected) cs'
      end
  end.

Definition tokens (s : string) : list token :=
  lex InText [] (list_ascii_of_string s).

(** *** Trees *)

(** Elements that never have content and take no end tag. *)
Definition void_elements : list string :=
  ["area"; "base"; "br"; "col"; "embed"; "hr"; "img"; "input"; "link";
   "meta"; "source"; "track"; "wbr"].

Definition is_void (name : string) : bool :=
  existsb (String.eqb name) void_elements.

(** An open element: its tag, its attributes and the siblings that precede
    it (most recent first). *)
Definition frame : Type := string * list (string * string) * list node.

(** Tokens to trees.  [open] is the stack of open elements and [cur] the
    children collected for the innermost one (most recent first).  An end tag
    must close the innermost open element and nothing may be left open:
    anything else is not read ([None]). *)
Fixpoint build (ts : list token) (open : list frame) (cur : list node)
  : option (list node) :=
  match ts with
  | [] =>
      match open with
      | [] => Some (rev cur)
      | _ :: _ => None
      end
  | TText s :: ts' => build ts' open (Text s :: cur)
  | TOpen n a :: ts' =>
      if is_void n then build ts' open (Elem n a [] :: cur)
      else build ts' ((n, a, cur) :: open) []
  | TClose n :: ts' =>
      match open with
      | (n', a, up) :: open' =>
          if String.eqb n n' then build ts' open' (Elem n' a (rev cur) :: up)
          else None
      | [] => None
      end
  end.

Definition parse (s : string) : option (list node) := build (tokens s) [] [].

(** *** Queries *)

(** A node and everything below it, in document order. *)
Fixpoint subtree (n : node) : list node :=
  n :: match n with
       | Text _ => []
       | Elem _ _ cs => List.flat_map subtree cs
       end.

Definition has_tag (t : string) (n : node) : bool :=
  match n with
  | Elem t' _ _ => String.eqb t t'
  | Text _ => false
  end.

Definition is_element (n : node) : bool :=
  match n with
  | Elem _ _ _ => true
  | Text _ => false
  end.

(** All elements with tag [t] anywhere in a forest, in document order. *)
Definition elements_by_tag (t : string) (forest : list node) : list node :=
  List.filter (has_tag t) (List.flat_map subtree forest).

Definition children (n : node) : list node :=
  match n with
  | Elem _ _ cs => cs
  | Text _ => []
  end.

Definition child_elements (n : node) : list node :=
  List.filter is_element (children n).

Definition tag_of (n : node) : string :=
  match n with
  | Elem t _ _ => t
  | Text _ => ""
  end.

(** The text below a node. *)
Fixpoint text_content (n : node) : string :=
  match n with
  | Text s => s
  | Elem _ _ cs => List.fold_right (fun c acc => text_content c +:+ acc) "" cs
  end.

(** The value of an attribute; the first occurrence counts. *)
Fixpoint attr_lookup (k : string) (attrs : list (string * string)) : option string :=
  match attrs with
  | [] => None
  | (k', v) :: rest => if String.eqb k k' then Some v else attr_lookup k rest
  end.

Definition attribute (k : string) (n : node) : option string :=
  match n with
  | Elem _ attrs _ => attr_lookup k attrs
  | Text _ => None
  end.

(** The control a label stands for: the first element that follows, among
    its siblings, the [label] element with the given text. *)
Fixpoint control_for (label : string) (siblings : list node) : option node :=
  match siblings with
  | [] => None
  | n :: rest =>
      if has_tag "label" n && String.eqb (text_content n) label
      then List.head (List.filter is_element rest)
      else control_for label rest
  end.

(** An unsigned decimal numeral. *)
Fixpoint digits (acc : Z) (cs : list ascii) : option Z :=
  match cs with
  | [] => Some acc
  | c :: cs' =>
      let d := Z.of_nat (nat_of_ascii c) - 48 in
      if (0 <=? d) && (d <=? 9) then digits (10 * acc + d) cs' else None
  end.

Definition number (s : string) : option Z :=
  match list_ascii_of_string s with
  | [] => None
  | cs => digits 0 cs
  end.

(** The [min] and [max] a numeric input declares. *)
Definition declared_range (n : node) : option (Z * Z) :=
  match attribute "min" n, attribute "max" n with
  | Some lo, Some hi =>
      match number lo, number hi with
      | Some a, Some b => Some (a, b)
      | _, _ => None
      end
  | _, _ => None
  end.

(** A value meets a declared range when it lies between the two bounds,
    both included. *)
Definition in_range (r : Z * Z) (v : Z) : Prop := fst r <= v <= snd r.

End Html.

(** ** The host: document, charting library, browser *)

Module Dom.
Import JS.

(** An element, with the properties the script reads or writes.  The
    subtree below an element is carried as its markup, [innerHTML];
    elements looked up by id are taken to be separate nodes, none inside
    another.  [download] and [href] are the attributes of that name, absent
    until they are set. *)
Record element : Type := Element {
  localName : string;
  innerHTML : string;
  download : option string;
  href : option string
}.

(** What [document.createElement(name)] returns. *)
Definition blank (name : string) : element :=
  {| localName := name; innerHTML := ""; download := None; href := None |}.

Definition with_innerHTML (v : string) (e : element) : element :=
  {| localName := localName e; innerHTML := v;
     download := download e; href := href e |}.

Definition with_download (v : string) (e : element) : element :=
  {| localName := localName e; innerHTML := innerHTML e;
     download := Some v; href := href e |}.

Definition with_href (v : string) (e : element) : element :=
  {| localName := localName e; innerHTML := innerHTML e;
     download := download e; href := Some v |}.

(** A reference to an element: one of the document, by its id, or one that
    was created and is attached nowhere, by its creation number. *)
Inductive ref : Type :=
| InDoc (id : string)
| Detached (n : nat).

(** A drawing context of a canvas. *)
Inductive context : Type :=
| Context (canvas : ref) (kind : string).

(** What the host is asked to do. *)
Inductive event : Type :=
| ChartNew (ctx : context) (config : jsval)
| Download (filename url : string)
| Navigate (url : string)
| FullscreenRequest (target : ref).

Record host : Type := Host {
  document : gmap string element;
  detached : list element;
  log : list event
}.

(** A thrown error, by its [name]. *)
Inductive exn : Type :=
| JSError (name : string).

(** What reading a property of [null], or calling what is no function,
    throws. *)
Definition TypeError : exn := JSError "TypeError".

Inductive completion (A : Type) : Type :=
| Normal (a : A)
| Throw (e : exn).
Arguments Normal {A} a.
Arguments Throw {A} e.

(** Script code: it runs on a host, completes normally or abruptly, and
    leaves the host as it was at that moment (nothing is rolled back). *)
Definition M (A : Type) : Type := host -> completion A * host.

Definition ret {A} (a : A) : M A := fun h => (Normal a, h).

Definition throw {A} (e : exn) : M A := fun h => (Throw e, h).

Definition bind {A B} (c : M A) (k : A -> M B) : M B :=
  fun h =>
    match c h with
    | (Normal a, h') => k a h'
    | (Throw e, h') => (Throw e, h')
    end.

Definition emit (ev : event) : M unit :=
  fun h => (Normal tt,
            {| document := document h; detached := detached h;
               log := log h ++ [ev] |}).

Definition element_at (r : ref) (h : host) : option element :=
  match r with
  | InDoc id => document h !! id
  | Detached n => detached h !! n
  end.

Definition store (r : ref) (e : element) (h : host) : host :=
  match r with
  | InDoc id =>
      {| document := <[id := e]> (document h); detached := detached h;
         log := log h |}
  | Detached n =>
      {| document := document h; detached := <[n := e]> (detached h);
         log := log h |}
  end.

(** [document.getElementById(id)]: the element, or [null]. *)
Definition getElementById (id : string) : M (option ref) :=
  fun h =>
    (Normal match document h !! id with
            | Some _ => Some (InDoc id)
            | None => None
            end, h).

(** The object of a property access or a method call: [null] has no
    properties. *)
Definition deref (target : option ref) : M ref :=
  match target with
  | Some r => ret r
  | None => throw TypeError
  end.

Definition the_element (r : ref) : M element :=
  fun h =>
    match element_at r h with
    | Some e => (Normal e, h)
    | None => (Throw TypeError, h)
    end.

Definition update (r : ref) (f : element -> element) : M unit :=
  bind (the_element r) (fun e h => (Normal tt, store r (f e) h)).

(** [target.innerHTML = v] replaces what the element holds. *)
Definition set_innerHTML (target : option ref) (v : string) : M unit :=
  bind (deref target) (fun r => update r (with_innerHTML v)).

(** [target.getContext(kind)]: only a canvas has the method. *)
Definition getContext (target : option ref) (kind : string) : M context :=
  bind (deref target) (fun r =>
  bind (the_element r) (fun e =>
  if String.eqb (localName e) "canvas" then ret (Context r kind)
  else throw TypeError)).

(** [new Chart(ctx, config)]; the instance is not kept by the script. *)
Definition new_Chart (ctx : context) (config : jsval) : M unit :=
  emit (ChartNew ctx config).

(** [document.createElement(name)]: a new element, attached nowhere. *)
Definition createElement (name : string) : M ref :=
  fun h =>
    (Normal (Detached (length (detached h))),
     {| document := document h; detached := detached h ++ [blank name];
        log := log h |}).

Definition set_download (target : ref) (v : string) : M unit :=
  update target (with_download v).

Definition set_href (target : ref) (v : string) : M unit :=
  update target (with_href v).

(** [target.click()]: a link with an address is followed; with a [download]
    attribute what it points to is saved under that name instead.  Any
    other element has nothing to do here. *)
Definition click (target : ref) : M unit :=
  bind (the_element target) (fun e =>
  if String.eqb (localName e) "a" then
    match href e, download e with
    | Some u, Some f => emit (Download f u)
    | Some u, None => emit (Navigate u)
    | None, _ => ret tt
    end
  else ret tt).

(** [target.requestFullscreen()]; the browser grants or refuses later, out
    of the script's sight. *)
Definition requestFullscreen (target : option ref) : M unit :=
  bind (deref target) (fun r =>
  bind (the_element r) (fun _ => emit (FullscreenRequest r))).

Section Bitmap.

(** The data URL of a canvas' bitmap is the browser's to compute; it depends
    on the canvas and on what has been drawn so far.  Canvases are taken to
    be readable (nothing foreign was drawn on them). *)
Variable data_url : ref -> list event -> string.

(** [target.toDataURL()]: only a canvas has the method. *)
Definition toDataURL (target : option ref) : M string :=
  bind (deref target) (fun r =>
  bind (the_element r) (fun e =>
  if String.eqb (localName e) "canvas"
  then fun h => (Normal (data_url r (log h)), h)
  else throw TypeError)).

End Bitmap.

(** What a call lets its caller know went wrong, if anything: the name of
    the error it throws, or the name it returns. *)
Definition surfaced (c : completion jsval) : option string :=
  match c with
  | Throw (JSError name) => Some name
  | Normal (JStr name) => Some name
  | Normal _ => None
  end.

End Dom.

Notation "'let*' x ':=' c 'in' k" := (Dom.bind c (fun x => k))
  (at level 10, x name, c at level 100, k at level 200, only parsing).
Notation "c ';;' k" := (Dom.bind c (fun _ => k))
  (at level 100, k at level 200, right associativity, only parsing).

(** ** The script *)

Import JS Dom.

(** Lines 26-27: the toolbars. *)
Definition render_toolbars : M unit :=
  let* top := getElementById "toolbar-top" in
  set_innerHTML top toolbarHTML ;;
  let* sidebar := getElementById "toolbar-sidebar" in
  set_innerHTML sidebar toolbarHTML.

(** Lines 31-46: the second argument of the first [new Chart]. *)
Definition scatter_config : jsval :=
  JObj [
    ("type", JStr "scatter");
    ("data", JObj [
      ("datasets", JArr [JObj [
        ("label", JStr "Companies");
        ("data", JArr [point 10 20; point 15 25; point 20 30]);
        ("backgroundColor", JStr "#00ffff")
      ]])
    ]);
    ("options", JObj [
      ("responsive", JBool true);
      ("plugins", JObj [
        ("legend", JObj [("display", JBool false)])
      ])
    ])
  ].

(** Lines 49-62: the second argument of the second [new Chart]. *)
Definition bar_config : jsval :=
  JObj [
    ("type", JStr "bar");
    ("data", JObj [
      ("labels", JArr [JStr "Company A"; JStr "Company B"; JStr "Company C"]);
      ("datasets", JArr [JObj [
        ("label", JStr "Parameter");
        ("data", JArr [JNum 75; JNum 88; JNum 64]);
        ("backgroundColor", JStr "#00ffff")
      ]])
    ]);
    ("options", JObj [
      ("responsive", JBool true)
    ])
  ].

(** [document.getElementById(id).getContext('2d')], the right-hand side of
    lines 30 and 48. *)
Definition context_2d (id : string) : M context :=
  let* canvas := getElementById id in
  getContext canvas "2d".

(** Lines 30-46. *)
Definition scatter_chart : M unit :=
  let* ctx1 := context_2d "scatterPlot" in
  new_Chart ctx1 scatter_config.

(** Lines 48-62. *)
Definition bar_chart : M unit :=
  let* ctx2 := context_2d "barChart" in
  new_Chart ctx2 bar_config.

(** The statements of the script, top to bottom. *)
Definition script : M unit :=
  render_toolbars ;; scatter_chart ;; bar_chart.

Section Utilities.

Variable data_url : ref -> list event -> string.

(** Lines 64-70. *)
Definition downloadChart (id : string) : M jsval :=
  let* canvas := getElementById id in
  let* link := createElement "a" in
  set_download link (id +:+ ".png") ;;
  let* url := toDataURL data_url canvas in
  set_href link url ;;
  click link ;;
  ret JUndef.

End Utilities.

(** Lines 72-75. *)
Definition expandChart (id : string) : M jsval :=
  let* canvas := getElementById id in
  requestFullscreen canvas ;;
  ret JUndef.

(** ** A page to run the script on *)

(** The four elements the script expects, as the page markup supplies them:
    two empty containers and two canvases. *)
Definition page : host :=
  {| document :=
       <["toolbar-top" := blank "div"]>
         (<["toolbar-sidebar" := blank "div"]>
            (<["scatterPlot" := blank "canvas"]>
               (<["barChart" := blank "canvas"]> ∅)));
     detached := [];
     log := [] |}.

(** A document with nothing in it. *)
Definition empty_page : host :=
  {| document := ∅; detached := []; log := [] |}.

(** The page with one of its elements taken out. *)
Definition page_without (id : string) : host :=
  {| document := delete id (document page); detached := []; log := [] |}.

(** A browser that encodes every bitmap as the same (empty) image. *)
Definition constant_url : ref -> list event -> string :=
  fun _ _ => "data:image/png;base64,".

(** * Properties *)

(** ** The template *)

(** The template is 700 characters on 22 lines. *)
Example toolbarHTML_length : String.length toolbarHTML = 700%nat.
Proof. reflexivity. Qed.

(** ** Running script code *)

Lemma host_eta (h : host) :
  {| document := document h; detached := detached h; log := log h |} = h.
Proof. by destruct h. Qed.

Lemma bind_normal {A B} (c : M A) (k : A -> M B) (h h' : host) (a : A) :
  c h = (Normal a, h') -> bind c k h = k a h'.
Proof. intros Hc. unfold bind. by rewrite Hc. Qed.

Lemma bind_throw {A B} (c : M A) (k : A -> M B) (h h' : host) (e : exn) :
  c h = (Throw e, h') -> bind c k h = (Throw e, h').
Proof. intros Hc. unfold bind. by rewrite Hc. Qed.

Lemma getElementById_present (id : string) (e : element) (h : host) :
  document h !! id = Some e ->
  getElementById id h = (Normal (Some (InDoc id)), h).
Proof. intros He. unfold getElementById. by rewrite He. Qed.

Lemma getElementById_absent (id : string) (h : host) :
  document h !! id = None ->
  getElementById id h = (Normal None, h).
Proof. intros He. unfold getElementById. by rewrite He. Qed.

Lemma mounts_differ : "toolbar-top" <> "toolbar-sidebar".
Proof. discriminate. Qed.

(** Storing back the element that is already there changes nothing. *)
Lemma store_same (id : string) (e : element) (h : host) :
  document h !! id = Some e -> store (InDoc id) e h = h.
Proof.
  intros He. unfold store. rewrite insert_id by done. apply host_eta.
Qed.

Lemma with_innerHTML_twice (v w : string) (e : element) :
  with_innerHTML v (with_innerHTML w e) = with_innerHTML v e.
Proof. reflexivity. Qed.

(** The two assignments of lines 26-27, case by case: which of the two
    containers the document has. *)
Lemma render_toolbars_cases (h : host) :
  render_toolbars h =
  match document h !! "toolbar-top" with
  | None => (Throw TypeError, h)
  | Some t =>
      let h1 := store (InDoc "toolbar-top") (with_innerHTML toolbarHTML t) h in
      match document h !! "toolbar-sidebar" with
      | None => (Throw TypeError, h1)
      | Some s =>
          (Normal tt,
           store (InDoc "toolbar-sidebar") (with_innerHTML toolbarHTML s) h1)
      end
  end.
Proof.
  unfold render_toolbars. generalize toolbarHTML. intros v.
  destruct (document h !! "toolbar-top") as [t|] eqn:Ht.
  - rewrite (bind_normal _ _ _ _ _ (getElementById_present _ _ _ Ht)).
    unfold set_innerHTML, deref, update, the_element, bind, ret,
      getElementById, element_at.
    rewrite Ht. cbn [store document].
    rewrite lookup_insert_ne by apply mounts_differ.
    destruct (document h !! "toolbar-sidebar") as [s|] eqn:Hs; cbn.
    + rewrite lookup_insert_ne by apply mounts_differ.
      by rewrite Hs.
    + reflexivity.
  - rewrite (bind_normal _ _ _ _ _ (getElementById_absent _ _ Ht)).
    reflexivity.
Qed.

(** With both containers in the document, rendering completes and leaves
    the template in each of them; nothing else is touched. *)
Lemma render_toolbars_done (h : host) (t s : element) :
  document h !! "toolbar-top" = Some t ->
  document h !! "toolbar-sidebar" = Some s ->
  render_toolbars h =
  (Normal tt,
   {| document :=
        <["toolbar-sidebar" := with_innerHTML toolbarHTML s]>
          (<["toolbar-top" := with_innerHTML toolbarHTML t]> (document h));
      detached := detached h;
      log := log h |}).
Proof.
  intros Ht Hs. rewrite render_toolbars_cases, Ht, Hs. reflexivity.
Qed.

(** ** The toolbars *)

(** C3: with both mount points in the document, rendering the toolbars
    completes normally and afterwards [toolbar-top] and [toolbar-sidebar]
    both hold the template, character for character; hence the two hold
    identical markup. *)
Theorem C3_same_markup_in_both_mounts (h : host) (t s : element) :
  document h !! "toolbar-top" = Some t ->
  document h !! "toolbar-sidebar" = Some s ->
  exists (h' : host) (t' s' : element),
    render_toolbars h = (Normal tt, h')
    /\ document h' !! "toolbar-top" = Some t'
    /\ document h' !! "toolbar-sidebar" = Some s'
    /\ innerHTML t' = toolbarHTML
    /\ innerHTML s' = toolbarHTML
    /\ innerHTML t' = innerHTML s'.
Proof.
  intros Ht Hs.
  eexists _, (with_innerHTML toolbarHTML t), (with_innerHTML toolbarHTML s).
  split; [exact (render_toolbars_done h t s Ht Hs)|].
  cbn [document].
  split.
  { rewrite lookup_insert_ne by (intros E; symmetry in E; exact (mounts_differ E)).
    apply lookup_insert_eq. }
  split; [apply lookup_insert_eq|].
  repeat split; reflexivity.
Qed.

Lemma C3_same_markup_in_both_mounts_witness :
  exists (h' : host) (t' s' : element),
    render_toolbars page = (Normal tt, h')
    /\ document h' !! "toolbar-top" = Some t'
    /\ document h' !! "toolbar-sidebar" = Some s'
    /\ innerHTML t' = toolbarHTML
    /\ innerHTML s' = toolbarHTML
    /\ innerHTML t' = innerHTML s'.
Proof.
  apply (C3_same_markup_in_both_mounts page (blank "div") (blank "div"));
    reflexivity.
Defined.

(** C10: rendering the toolbars a second time changes nothing: run on the
    host the first rendering left, the second one ends the same way and
    leaves that host as it is, whatever the document held before and
    whichever of the two mount points it has. *)
Theorem C10_render_toolbars_idempotent (h : host) :
  render_toolbars (snd (render_toolbars h)) = render_toolbars h.
Proof.
  rewrite (render_toolbars_cases h).
  destruct (document h !! "toolbar-top") as [t|] eqn:Ht.
  - destruct (document h !! "toolbar-sidebar") as [s|] eqn:Hs;
      cbn [snd]; rewrite render_toolbars_cases; cbn [store document].
    + rewrite (lookup_insert_ne _ "toolbar-sidebar" "toolbar-top")
        by (intros E; symmetry in E; exact (mounts_differ E)).
      rewrite !lookup_insert_eq. cbn zeta. cbn [store document detached log].
      rewrite with_innerHTML_twice.
      rewrite (insert_id _ "toolbar-top" (with_innerHTML toolbarHTML t)).
      2:{ rewrite lookup_insert_ne
            by (intros E; symmetry in E; exact (mounts_differ E)).
          apply lookup_insert_eq. }
      rewrite insert_insert_eq. reflexivity.
    + rewrite lookup_insert_eq.
      rewrite lookup_insert_ne by apply mounts_differ.
      rewrite Hs. cbn zeta. cbn [store document detached log].
      rewrite with_innerHTML_twice, insert_insert_eq. reflexivity.
  - cbn [snd]. rewrite render_toolbars_cases, Ht. reflexivity.
Qed.

(** The dropdown of the template, as the markup reader sees it. *)
Lemma template_dropdown :
  exists (forest : list Html.node) (sel : Html.node),
    Html.parse toolbarHTML = Some forest
    /\ Html.elements_by_tag "select" forest = [sel]
    /\ map (fun n => (Html.tag_of n, Html.text_content n))
           (Html.child_elements sel)
       = [("option", "Revenue"); ("option", "Profit");
          ("option", "Employee Count")]
    /\ Html.elements_by_tag "option" forest = Html.child_elements sel.
Proof.
  eexists _, _.
  split; [vm_compute; reflexivity|].
  split; [vm_compute; reflexivity|].
  split; vm_compute; reflexivity.
Qed.

(** C4: once the toolbars are rendered, the markup each mount point holds
    reads as a fragment with exactly one [select] element, whose element
    children are exactly three [option]s with the texts Revenue, Profit and
    Employee Count, in that order; the fragment has no other [option]. *)
Theorem C4_one_dropdown_three_options (h : host) (t s : element) (mount : string) :
  document h !! "toolbar-top" = Some t ->
  document h !! "toolbar-sidebar" = Some s ->
  mount = "toolbar-top" \/ mount = "toolbar-sidebar" ->
  exists (e : element) (forest : list Html.node) (sel : Html.node),
    document (snd (render_toolbars h)) !! mount = Some e
    /\ Html.parse (innerHTML e) = Some forest
    /\ Html.elements_by_tag "select" forest = [sel]
    /\ map (fun n => (Html.tag_of n, Html.text_content n))
           (Html.child_elements sel)
       = [("option", "Revenue"); ("option", "Profit");
          ("option", "Employee Count")]
    /\ Html.elements_by_tag "option" forest = Html.child_elements sel.
Proof.
  intros Ht Hs Hm.
  destruct template_dropdown as (forest & sel & Hparse & Hsel).
  rewrite (render_toolbars_done h t s Ht Hs). cbn [snd document].
  destruct Hm as [-> | ->].
  - exists (with_innerHTML toolbarHTML t), forest, sel.
    split; [|split; [exact Hparse | exact Hsel]].
    rewrite lookup_insert_ne
      by (intros E; symmetry in E; exact (mounts_differ E)).
    apply lookup_insert_eq.
  - exists (with_innerHTML toolbarHTML s), forest, sel.
    split; [|split; [exact Hparse | exact Hsel]].
    apply lookup_insert_eq.
Qed.

Lemma C4_one_dropdown_three_options_witness :
  exists (e : element) (forest : list Html.node) (sel : Html.node),
    document (snd (render_toolbars page)) !! "toolbar-sidebar" = Some e
    /\ Html.parse (innerHTML e) = Some forest
    /\ Html.elements_by_tag "select" forest = [sel]
    /\ map (fun n => (Html.tag_of n, Html.text_content n))
           (Html.child_elements sel)
       = [("option", "Revenue"); ("option", "Profit");
          ("option", "Employee Count")]
    /\ Html.elements_by_tag "option" forest = Html.child_elements sel.
Proof.
  apply (C4_one_dropdown_three_options page (blank "div") (blank "div")
           "toolbar-sidebar").
  - reflexivity.
  - reflexivity.
  - right. reflexivity.
Defined.

(** C5: in the template, the control labelled Number of Companies is an
    [input] of type [number] that declares [min] 1 and [max] 25; the range it
    declares is met by exactly the values from 1 to 25, both included. *)
Theorem C5_company_count_range :
  exists (forest : list Html.node) (input : Html.node),
    Html.parse toolbarHTML = Some forest
    /\ Html.control_for "Number of Companies" forest = Some input
    /\ Html.tag_of input = "input"
    /\ Html.attribute "type" input = Some "number"
    /\ Html.attribute "min" input = Some "1"
    /\ Html.attribute "max" input = Some "25"
    /\ Html.declared_range input = Some (1, 25)
    /\ forall v : Z, Html.in_range (1, 25) v <-> 1 <= v <= 25.
Proof.
  eexists _, _.
  split; [vm_compute; reflexivity|].
  split; [vm_compute; reflexivity|].
  repeat (split; [vm_compute; reflexivity|]).
  intros v. unfold Html.in_range. cbn [fst snd]. reflexivity.
Qed.

(** ** The charts *)

Lemma context_2d_canvas (id : string) (e : element) (h : host) :
  document h !! id = Some e ->
  localName e = "canvas" ->
  context_2d id h = (Normal (Context (InDoc id) "2d"), h).
Proof.
  intros He Hc. unfold context_2d.
  rewrite (bind_normal _ _ _ _ _ (getElementById_present _ _ _ He)).
  unfold getContext, deref, the_element, bind, ret, element_at.
  rewrite He, Hc. reflexivity.
Qed.

Lemma context_2d_absent (id : string) (h : host) :
  document h !! id = None ->
  context_2d id h = (Throw TypeError, h).
Proof.
  intros He. unfold context_2d.
  rewrite (bind_normal _ _ _ _ _ (getElementById_absent _ _ He)).
  reflexivity.
Qed.

Lemma context_2d_not_canvas (id : string) (e : element) (h : host) :
  document h !! id = Some e ->
  localName e <> "canvas" ->
  context_2d id h = (Throw TypeError, h).
Proof.
  intros He Hc. unfold context_2d.
  rewrite (bind_normal _ _ _ _ _ (getElementById_present _ _ _ He)).
  unfold getContext, deref, the_element, bind, ret, element_at.
  rewrite He. apply String.eqb_neq in Hc. rewrite Hc. reflexivity.
Qed.

(** A chart on a canvas of the document: the constructor is called once,
    with the 2-D context of that canvas. *)
Lemma chart_on_canvas (id : string) (config : jsval) (e : element) (h : host) :
  document h !! id = Some e ->
  localName e = "canvas" ->
  (let* ctx := context_2d id in new_Chart ctx config) h =
  (Normal tt,
   {| document := document h; detached := detached h;
      log := log h ++ [ChartNew (Context (InDoc id) "2d") config] |}).
Proof.
  intros He Hc.
  rewrite (bind_normal _ _ _ _ _ (context_2d_canvas _ _ _ He Hc)).
  reflexivity.
Qed.

(** C1: with the canvas [scatterPlot] in the document, the scatter chart
    statement calls the chart constructor exactly once, on the 2-D context of
    that canvas, with a configuration of type scatter whose only dataset is
    labelled Companies and holds exactly the points (10,20), (15,25),
    (20,30); the legend's [display] option is false and [responsive] is
    true. *)
Theorem C1_scatter_chart_config (h : host) (e : element) :
  document h !! "scatterPlot" = Some e ->
  localName e = "canvas" ->
  exists (config dataset : jsval),
    scatter_chart h =
      (Normal tt,
       {| document := document h; detached := detached h;
          log := log h ++ [ChartNew (Context (InDoc "scatterPlot") "2d") config] |})
    /\ get "type" config = JStr "scatter"
    /\ get_path ["data"; "datasets"] config = JArr [dataset]
    /\ get "label" dataset = JStr "Companies"
    /\ get "data" dataset = JArr [point 10 20; point 15 25; point 20 30]
    /\ get_path ["options"; "plugins"; "legend"; "display"] config = JBool false
    /\ get_path ["options"; "responsive"] config = JBool true.
Proof.
  intros He Hc. eexists scatter_config, _.
  split; [exact (chart_on_canvas _ _ _ _ He Hc)|].
  repeat split; reflexivity.
Qed.

Lemma C1_scatter_chart_config_witness :
  exists (config dataset : jsval),
    scatter_chart page =
      (Normal tt,
       {| document := document page; detached := detached page;
          log := log page ++ [ChartNew (Context (InDoc "scatterPlot") "2d") config] |})
    /\ get "type" config = JStr "scatter"
    /\ get_path ["data"; "datasets"] config = JArr [dataset]
    /\ get "label" dataset = JStr "Companies"
    /\ get "data" dataset = JArr [point 10 20; point 15 25; point 20 30]
    /\ get_path ["options"; "plugins"; "legend"; "display"] config = JBool false
    /\ get_path ["options"; "responsive"] config = JBool true.
Proof.
  apply (C1_scatter_chart_config page (blank "canvas")); reflexivity.
Defined.

(** C2: with the canvas [barChart] in the document, the bar chart statement
    calls the chart constructor exactly once, on the 2-D context of that
    canvas, with a configuration of type bar whose labels are Company A,
    Company B, Company C and whose only dataset is labelled Parameter and
    holds 75, 88, 64 in that order; [responsive] is true and no legend
    [display] option is set. *)
Theorem C2_bar_chart_config (h : host) (e : element) :
  document h !! "barChart" = Some e ->
  localName e = "canvas" ->
  exists (config dataset : jsval),
    bar_chart h =
      (Normal tt,
       {| document := document h; detached := detached h;
          log := log h ++ [ChartNew (Context (InDoc "barChart") "2d") config] |})
    /\ get "type" config = JStr "bar"
    /\ get_path ["data"; "labels"] config
       = JArr [JStr "Company A"; JStr "Company B"; JStr "Company C"]
    /\ get_path ["data"; "datasets"] config = JArr [dataset]
    /\ get "label" dataset = JStr "Parameter"
    /\ get "data" dataset = JArr [JNum 75; JNum 88; JNum 64]
    /\ get_path ["options"; "responsive"] config = JBool true
    /\ get_path ["options"; "plugins"] config = JUndef
    /\ get_path ["options"; "plugins"; "legend"; "display"] config = JUndef.
Proof.
  intros He Hc. eexists bar_config, _.
  split; [exact (chart_on_canvas _ _ _ _ He Hc)|].
  repeat split; reflexivity.
Qed.

Lemma C2_bar_chart_config_witness :
  exists (config dataset : jsval),
    bar_chart page =
      (Normal tt,
       {| document := document page; detached := detached page;
          log := log page ++ [ChartNew (Context (InDoc "barChart") "2d") config] |})
    /\ get "type" config = JStr "bar"
    /\ get_path ["data"; "labels"] config
       = JArr [JStr "Company A"; JStr "Company B"; JStr "Company C"]
    /\ get_path ["data"; "datasets"] config = JArr [dataset]
    /\ get "label" dataset = JStr "Parameter"
    /\ get "data" dataset = JArr [JNum 75; JNum 88; JNum 64]
    /\ get_path ["options"; "responsive"] config = JBool true
    /\ get_path ["options"; "plugins"] config = JUndef
    /\ get_path ["options"; "plugins"; "legend"; "display"] config = JUndef.
Proof.
  apply (C2_bar_chart_config page (blank "canvas")); reflexivity.
Defined.

(** C8: when the canvas a chart statement names is not in the document,
    acquiring its 2-D context throws (a [TypeError], nothing catches it) and
    the statement ends there: the chart constructor is not called and the
    host is left exactly as it was.  This holds for the scatter chart and
    for the bar chart. *)
Theorem C8_absent_canvas_no_chart (h : host) (id : string) (config : jsval) :
  document h !! id = None ->
  context_2d id h = (Throw TypeError, h)
  /\ (let* ctx := context_2d id in new_Chart ctx config) h = (Throw TypeError, h)
  /\ (id = "scatterPlot" -> scatter_chart h = (Throw TypeError, h))
  /\ (id = "barChart" -> bar_chart h = (Throw TypeError, h)).
Proof.
  intros He.
  pose proof (context_2d_absent id h He) as Hctx.
  split; [exact Hctx|].
  split; [exact (bind_throw _ _ _ _ _ Hctx)|].
  split; intros ->; exact (bind_throw _ _ _ _ _ Hctx).
Qed.

Lemma C8_absent_canvas_no_chart_witness :
  context_2d "scatterPlot" empty_page = (Throw TypeError, empty_page)
  /\ (let* ctx := context_2d "scatterPlot" in new_Chart ctx scatter_config)
       empty_page = (Throw TypeError, empty_page)
  /\ ("scatterPlot" = "scatterPlot" ->
      scatter_chart empty_page = (Throw TypeError, empty_page))
  /\ ("scatterPlot" = "barChart" ->
      bar_chart empty_page = (Throw TypeError, empty_page)).
Proof.
  apply (C8_absent_canvas_no_chart empty_page "scatterPlot" scatter_config).
  reflexivity.
Defined.

(** ** The chart utilities *)

Lemma last_created_lookup (l : list element) (x : element) :
  (l ++ [x])%list !! length l = Some x.
Proof. by apply list_lookup_middle. Qed.

Lemma last_created_insert (l : list element) (x y : element) :
  <[length l := y]> (l ++ [x])%list = (l ++ [y])%list.
Proof.
  rewrite insert_app_r_alt by (apply Nat.le_refl).
  rewrite Nat.sub_diag. reflexivity.
Qed.

(** [downloadChart], case by case: what the id resolves to.  The link is
    created and named before the canvas is asked for its bitmap, so it
    exists (attached nowhere) also when that fails. *)
Lemma downloadChart_cases (data_url : ref -> list event -> string)
    (id : string) (h : host) :
  downloadChart data_url id h =
  let name := id +:+ ".png" in
  let failed :=
    (Throw TypeError,
     {| document := document h;
        detached := detached h ++ [with_download name (blank "a")];
        log := log h |}) in
  match document h !! id with
  | Some e =>
      if String.eqb (localName e) "canvas" then
        let url := data_url (InDoc id) (log h) in
        (Normal JUndef,
         {| document := document h;
            detached :=
              detached h ++ [with_href url (with_download name (blank "a"))];
            log := log h ++ [Download name url] |})
      else failed
  | None => failed
  end.
Proof.
  unfold downloadChart, set_download, set_href, update, click, toDataURL.
  unfold bind at 1. unfold getElementById at 1.
  unfold bind at 1. unfold createElement at 1.
  unfold bind at 1. unfold bind at 1. unfold the_element at 1.
  cbn [element_at detached]. rewrite last_created_lookup.
  cbn [store document detached log]. rewrite last_created_insert.
  destruct (document h !! id) as [e|] eqn:He.
  - unfold bind at 1. unfold bind at 1. unfold deref, ret.
    unfold bind at 1. unfold the_element at 1.
    cbn [element_at document]. rewrite He.
    destruct (String.eqb (localName e) "canvas") eqn:Hc.
    + cbn [log].
      unfold bind at 1. unfold bind at 1. unfold the_element at 1.
      cbn [element_at detached]. rewrite last_created_lookup.
      cbn [store document detached log]. rewrite last_created_insert.
      unfold bind at 1. unfold bind at 1. unfold the_element at 1.
      cbn [element_at detached]. rewrite last_created_lookup.
      reflexivity.
    + reflexivity.
  - reflexivity.
Qed.

(** [expandChart], case by case. *)
Lemma expandChart_cases (id : string) (h : host) :
  expandChart id h =
  match document h !! id with
  | Some _ =>
      (Normal JUndef,
       {| document := document h; detached := detached h;
          log := log h ++ [FullscreenRequest (InDoc id)] |})
  | None => (Throw TypeError, h)
  end.
Proof.
  unfold expandChart, requestFullscreen, deref, the_element, emit, bind, ret,
    getElementById, element_at.
  destruct (document h !! id) as [e|] eqn:He; cbn.
  - rewrite He. reflexivity.
  - reflexivity.
Qed.

(** C6: for every id that resolves to a canvas, [downloadChart] completes
    normally and asks the browser for exactly one thing, a download named
    [<id>.png] of the canvas' data URL; the link it used stays detached. *)
Theorem C6_download_named_after_id (data_url : ref -> list event -> string)
    (id : string) (h : host) (e : element) :
  document h !! id = Some e ->
  localName e = "canvas" ->
  exists (link : element),
    downloadChart data_url id h =
      (Normal JUndef,
       {| document := document h;
          detached := detached h ++ [link];
          log := log h ++ [Download (id +:+ ".png") (data_url (InDoc id) (log h))] |})
    /\ localName link = "a"
    /\ download link = Some (id +:+ ".png")
    /\ href link = Some (data_url (InDoc id) (log h)).
Proof.
  intros He Hc. rewrite downloadChart_cases. cbn zeta.
  rewrite He, Hc. cbn [String.eqb Ascii.eqb Bool.eqb].
  eexists. split; [reflexivity|]. repeat split.
Qed.

Lemma C6_download_named_after_id_witness :
  exists (link : element),
    downloadChart constant_url "scatterPlot" page =
      (Normal JUndef,
       {| document := document page;
          detached := detached page ++ [link];
          log := log page ++ [Download "scatterPlot.png"
                                (constant_url (InDoc "scatterPlot") (log page))] |})
    /\ localName link = "a"
    /\ download link = Some "scatterPlot.png"
    /\ href link = Some (constant_url (InDoc "scatterPlot") (log page)).
Proof.
  apply (C6_download_named_after_id constant_url "scatterPlot" page
           (blank "canvas")); reflexivity.
Defined.

(** C9: whatever the id and however the call ends, [downloadChart] leaves
    the document as it found it; the one element it creates, an [a], is
    among the detached ones afterwards. *)
Theorem C9_download_leaves_document (data_url : ref -> list event -> string)
    (id : string) (h : host) :
  document (snd (downloadChart data_url id h)) = document h
  /\ exists (link : element),
       detached (snd (downloadChart data_url id h)) = (detached h ++ [link])%list
       /\ localName link = "a".
Proof.
  rewrite downloadChart_cases. cbn zeta.
  destruct (document h !! id) as [e|];
    [destruct (String.eqb (localName e) "canvas")|];
    cbn [snd document detached];
    (split; [reflexivity | eexists; split; reflexivity]).
Qed.

(** C7, as the claim has it, at a document with no elements: the call
    does not report [ElementNotFound]. *)
Lemma C7_no_ElementNotFound_counterexample :
  ~ (document empty_page !! "missing" = None ->
     surfaced (fst (expandChart "missing" empty_page)) = Some "ElementNotFound").
Proof.
  intros H. specialize (H eq_refl). vm_compute in H. discriminate H.
Qed.

(** C7, amended: with an id that resolves to no element, [expandChart]
    throws a [TypeError] that nothing catches; no fullscreen request is made
    and the host is left as it was. *)
Theorem C7_missing_element_TypeError (id : string) (h : host) :
  document h !! id = None ->
  expandChart id h = (Throw TypeError, h)
  /\ surfaced (fst (expandChart id h)) = Some "TypeError".
Proof.
  intros He. rewrite expandChart_cases, He. split; reflexivity.
Qed.

Lemma C7_missing_element_TypeError_witness :
  expandChart "missing" empty_page = (Throw TypeError, empty_page)
  /\ surfaced (fst (expandChart "missing" empty_page)) = Some "TypeError".
Proof.
  apply (C7_missing_element_TypeError "missing" empty_page). reflexivity.
Defined.

(** ** The script as a whole *)

(** What rendering the toolbars leaves alone. *)
Lemma render_toolbars_lookup_other (h : host) (id : string) :
  id <> "toolbar-top" ->
  id <> "toolbar-sidebar" ->
  document (snd (render_toolbars h)) !! id = document h !! id.
Proof.
  intros Ht Hs. rewrite render_toolbars_cases.
  destruct (document h !! "toolbar-top") as [t|];
    [destruct (document h !! "toolbar-sidebar") as [s|]|];
    cbn [snd store document];
    rewrite ?lookup_insert_ne by (intros E; symmetry in E; contradiction);
    reflexivity.
Qed.

Lemma render_toolbars_log (h : host) :
  log (snd (render_toolbars h)) = log h.
Proof.
  rewrite render_toolbars_cases.
  destruct (document h !! "toolbar-top") as [t|];
    [destruct (document h !! "toolbar-sidebar") as [s|]|]; reflexivity.
Qed.

Lemma render_toolbars_detached (h : host) :
  detached (snd (render_toolbars h)) = detached h.
Proof.
  rewrite render_toolbars_cases.
  destruct (document h !! "toolbar-top") as [t|];
    [destruct (document h !! "toolbar-sidebar") as [s|]|]; reflexivity.
Qed.


(** A chart statement, case by case: what the id resolves to. *)
Lemma chart_cases (id : string) (config : jsval) (h : host) :
  (let* ctx := context_2d id in new_Chart ctx config) h =
  match document h !! id with
  | Some e =>
      if String.eqb (localName e) "canvas"
      then (Normal tt,
            {| document := document h; detached := detached h;
               log := log h ++ [ChartNew (Context (InDoc id) "2d") config] |})
      else (Throw TypeError, h)
  | None => (Throw TypeError, h)
  end.
Proof.
  destruct (document h !! id) as [e|] eqn:He.
  - destruct (String.eqb (localName e) "canvas") eqn:Hc.
    + apply String.eqb_eq in Hc. exact (chart_on_canvas _ _ _ _ He Hc).
    + apply String.eqb_neq in Hc.
      exact (bind_throw _ _ _ _ _ (context_2d_not_canvas _ _ _ He Hc)).
  - exact (bind_throw _ _ _ _ _ (context_2d_absent _ _ He)).
Qed.

(** The script, statement by statement: it stops at the first statement
    that throws, with the host as the statements before it left it. *)
Lemma script_cases (h : host) :
  script h =
  let h1 := snd (render_toolbars h) in
  let scatter := ChartNew (Context (InDoc "scatterPlot") "2d") scatter_config in
  let bar := ChartNew (Context (InDoc "barChart") "2d") bar_config in
  match fst (render_toolbars h) with
  | Throw e => (Throw e, h1)
  | Normal _ =>
      match document h !! "scatterPlot" with
      | Some c1 =>
          if String.eqb (localName c1) "canvas" then
            match document h !! "barChart" with
            | Some c2 =>
                if String.eqb (localName c2) "canvas" then
                  (Normal tt,
                   {| document := document h1; detached := detached h;
                      log := log h ++ [scatter; bar] |})
                else
                  (Throw TypeError,
                   {| document := document h1; detached := detached h;
                      log := log h ++ [scatter] |})
            | None =>
                (Throw TypeError,
                 {| document := document h1; detached := detached h;
                    log := log h ++ [scatter] |})
            end
          else (Throw TypeError, h1)
      | None => (Throw TypeError, h1)
      end
  end.
Proof.
  cbn zeta. unfold script. unfold bind at 1.
  pose proof (render_toolbars_lookup_other h "scatterPlot") as Hs.
  pose proof (render_toolbars_lookup_other h "barChart") as Hb.
  pose proof (render_toolbars_log h) as Hl.
  pose proof (render_toolbars_detached h) as Hd.
  destruct (render_toolbars h) as [[[]|e] h1]; cbn [fst snd] in *;
    [|reflexivity].
  specialize (Hs ltac:(discriminate) ltac:(discriminate)).
  specialize (Hb ltac:(discriminate) ltac:(discriminate)).
  unfold bind at 1. unfold scatter_chart. rewrite chart_cases, Hs.
  destruct (document h !! "scatterPlot") as [c1|]; [|reflexivity].
  destruct (String.eqb (localName c1) "canvas"); [|reflexivity].
  unfold bar_chart. rewrite chart_cases. cbn [document detached log].
  rewrite Hb, Hl, Hd.
  destruct (document h !! "barChart") as [c2|]; [|reflexivity].
  destruct (String.eqb (localName c2) "canvas"); [|reflexivity].
  rewrite <- app_assoc. reflexivity.
Qed.




(** Without the container [toolbar-top] the script fails at its first
    statement: nothing is rendered, not in [toolbar-sidebar] either, and no
    chart is constructed, whatever else the document has. *)
Theorem script_without_top_container (h : host) :
  document h !! "toolbar-top" = None ->
  script h = (Throw TypeError, h).
Proof.
  intros Ht. rewrite script_cases, render_toolbars_cases, Ht. reflexivity.
Qed.

Lemma script_without_top_container_witness :
  script (page_without "toolbar-top") =
  (Throw TypeError, page_without "toolbar-top").
Proof.
  apply (script_without_top_container (page_without "toolbar-top")).
  reflexivity.
Defined.

(** With [toolbar-top] but without [toolbar-sidebar] the script fails at
    its second statement.  The first one is not undone: the top container
    holds the toolbar; no chart is constructed. *)
Theorem script_without_sidebar_container (h : host) (t : element) :
  document h !! "toolbar-top" = Some t ->
  document h !! "toolbar-sidebar" = None ->
  script h =
  (Throw TypeError,
   {| document := <["toolbar-top" := with_innerHTML toolbarHTML t]> (document h);
      detached := detached h;
      log := log h |}).
Proof.
  intros Ht Hs. rewrite script_cases, render_toolbars_cases, Ht, Hs.
  reflexivity.
Qed.

Lemma script_without_sidebar_container_witness :
  script (page_without "toolbar-sidebar") =
  (Throw TypeError,
   {| document :=
        <["toolbar-top" := with_innerHTML toolbarHTML (blank "div")]>
          (document (page_without "toolbar-sidebar"));
      detached := detached (page_without "toolbar-sidebar");
      log := log (page_without "toolbar-sidebar") |}).
Proof.
  apply (script_without_sidebar_container (page_without "toolbar-sidebar")
           (blank "div")); reflexivity.
Defined.






(** ** More on the chart utilities *)

(** [downloadChart] completes exactly when the id resolves to a canvas.
    In every other case it ends with an uncaught [TypeError] and the
    browser is asked for nothing. *)
Theorem downloadChart_completes_iff (data_url : ref -> list event -> string)
    (id : string) (h : host) :
  (fst (downloadChart data_url id h) = Normal JUndef <->
   exists c, document h !! id = Some c /\ localName c = "canvas")
  /\ (fst (downloadChart data_url id h) = Normal JUndef
      \/ fst (downloadChart data_url id h) = Throw TypeError
         /\ log (snd (downloadChart data_url id h)) = log h).
Proof.
  rewrite downloadChart_cases. cbn zeta.
  destruct (document h !! id) as [c|].
  - destruct (String.eqb (localName c) "canvas") eqn:Hc; cbn [fst snd log].
    + apply String.eqb_eq in Hc. split; [|by left]. split; eauto.
    + apply String.eqb_neq in Hc. split; [|by right].
      split; [discriminate|]. intros (c' & [= <-] & Hc'). contradiction.
  - cbn [fst snd log]. split; [|by right].
    split; [discriminate|]. intros (c' & [=] & _).
Qed.

(** When the id resolves to no canvas (to nothing, or to another kind of
    element), [downloadChart] has already created and named its link by the
    time it fails: the link stays behind, detached, with its [download] name
    and no address.  Nothing is downloaded and the document is untouched. *)
Theorem downloadChart_without_canvas (data_url : ref -> list event -> string)
    (id : string) (h : host) :
  (forall c, document h !! id = Some c -> localName c <> "canvas") ->
  downloadChart data_url id h =
  (Throw TypeError,
   {| document := document h;
      detached :=
        detached h ++
        [{| localName := "a"; innerHTML := "";
            download := Some (id +:+ ".png"); href := None |}];
      log := log h |}).
Proof.
  intros Hc. rewrite downloadChart_cases. cbn zeta.
  destruct (document h !! id) as [c|]; [|reflexivity].
  specialize (Hc c eq_refl). apply String.eqb_neq in Hc. rewrite Hc.
  reflexivity.
Qed.

Lemma downloadChart_without_canvas_witness :
  downloadChart constant_url "toolbar-top" page =
  (Throw TypeError,
   {| document := document page;
      detached :=
        detached page ++
        [{| localName := "a"; innerHTML := "";
            download := Some "toolbar-top.png"; href := None |}];
      log := log page |}).
Proof.
  apply (downloadChart_without_canvas constant_url "toolbar-top" page).
  intros c Hc. vm_compute in Hc. injection Hc as <-. discriminate.
Defined.

(** [expandChart] asks for fullscreen on whatever element the id resolves
    to, canvas or not: one request, for that element, and nothing else
    changes. *)
Theorem expandChart_requests_fullscreen (id : string) (h : host) (e : element) :
  document h !! id = Some e ->
  expandChart id h =
  (Normal JUndef,
   {| document := document h; detached := detached h;
      log := log h ++ [FullscreenRequest (InDoc id)] |}).
Proof.
  intros He. rewrite expandChart_cases, He. reflexivity.
Qed.

Lemma expandChart_requests_fullscreen_witness :
  expandChart "toolbar-sidebar" page =
  (Normal JUndef,
   {| document := document page; detached := detached page;
      log := log page ++ [FullscreenRequest (InDoc "toolbar-sidebar")] |}).
Proof.
  apply (expandChart_requests_fullscreen "toolbar-sidebar" page (blank "div")).
  reflexivity.
Defined.

(** [expandChart] never changes the document nor creates an element, and
    it makes a request exactly when it completes. *)
Theorem expandChart_frame (id : string) (h : host) :
  document (snd (expandChart id h)) = document h
  /\ detached (snd (expandChart id h)) = detached h
  /\ (fst (expandChart id h) = Normal JUndef <-> is_Some (document h !! id))
  /\ (log (snd (expandChart id h)) = log h <-> document h !! id = None).
Proof.
  rewrite expandChart_cases.
  destruct (document h !! id) as [e|]; cbn [fst snd document detached log].
  - split; [reflexivity|]. split; [reflexivity|].
    split; [split; eauto|].
    split; [|discriminate].
    intros E. apply (f_equal length) in E.
    rewrite length_app in E. cbn in E. lia.
  - split; [reflexivity|]. split; [reflexivity|].
    split; [|done].
    split; [discriminate|]. intros [? [=]].
Qed.

Lemma list_ascii_of_string_app (s t : string) :
  list_ascii_of_string (s +:+ t) =
  (list_ascii_of_string s ++ list_ascii_of_string t)%list.
Proof.
  induction s as [|c s IH]; [reflexivity|].
  change (c :: list_ascii_of_string (s +:+ t) =
          c :: (list_ascii_of_string s ++ list_ascii_of_string t)%list).
  by rewrite IH.
Qed.

Lemma append_cancel_r (s1 s2 t : string) : s1 +:+ t = s2 +:+ t -> s1 = s2.
Proof.
  intros E. apply (f_equal list_ascii_of_string) in E.
  rewrite !list_ascii_of_string_app in E. apply List.app_inv_tail in E.
  rewrite <- (string_of_list_ascii_of_string s1), E.
  apply string_of_list_ascii_of_string.
Qed.

(** The download a call of [downloadChart] adds to the log, if any, is
    named after the id. *)
Lemma downloadChart_new_download (data_url : ref -> list event -> string)
    (id : string) (h : host) (f u : string) :
  In (Download f u) (log (snd (downloadChart data_url id h))) ->
  ~ In (Download f u) (log h) ->
  f = id +:+ ".png".
Proof.
  rewrite downloadChart_cases. cbn zeta.
  destruct (document h !! id) as [c|];
    [destruct (String.eqb (localName c) "canvas")|];
    cbn [snd log]; intros Hin Hnot; try contradiction.
  apply in_app_or in Hin as [Hin | [[= <- _] | []]]; [contradiction | done].
Qed.

(** The name of a download tells the chart: two downloads that
    [downloadChart] makes under the same file name were asked for with the
    same id. *)
Theorem download_name_determines_id (data_url : ref -> list event -> string)
    (id1 id2 : string) (h1 h2 : host) (f u1 u2 : string) :
  In (Download f u1) (log (snd (downloadChart data_url id1 h1))) ->
  ~ In (Download f u1) (log h1) ->
  In (Download f u2) (log (snd (downloadChart data_url id2 h2))) ->
  ~ In (Download f u2) (log h2) ->
  id1 = id2.
Proof.
  intros Hin1 Hnot1 Hin2 Hnot2.
  pose proof (downloadChart_new_download _ _ _ _ _ Hin1 Hnot1) as E1.
  pose proof (downloadChart_new_download _ _ _ _ _ Hin2 Hnot2) as E2.
  apply (append_cancel_r id1 id2 ".png"). congruence.
Qed.

Lemma download_name_determines_id_witness : "barChart" = "barChart".
Proof.
  apply (download_name_determines_id constant_url "barChart" "barChart"
           page page "barChart.png"
           "data:image/png;base64," "data:image/png;base64,").
  - vm_compute. left. reflexivity.
  - vm_compute. intros [].
  - vm_compute. left. reflexivity.
  - vm_compute. intros [].
Defined.

Lemma downloadChart_on_canvas (data_url : ref -> list event -> string)
    (id : string) (h : host) (e : element) :
  document h !! id = Some e ->
  localName e = "canvas" ->
  downloadChart data_url id h =
  (Normal JUndef,
   {| document := document h;
      detached :=
        detached h ++
        [{| localName := "a"; innerHTML := "";
            download := Some (id +:+ ".png");
            href := Some (data_url (InDoc id) (log h)) |}];
      log := log h ++ [Download (id +:+ ".png") (data_url (InDoc id) (log h))] |}).
Proof.
  intros He Hc. rewrite downloadChart_cases. cbn zeta.
  rewrite He, Hc. reflexivity.
Qed.

(** Two downloads in a row: each call makes a link of its own (none is
    reused or removed, so two are left detached), the two downloads are
    asked for in the order of the calls, and the second one reads its
    canvas after the first download was made. *)
Theorem downloadChart_twice (data_url : ref -> list event -> string)
    (id1 id2 : string) (h : host) (e1 e2 : element) :
  document h !! id1 = Some e1 ->
  localName e1 = "canvas" ->
  document h !! id2 = Some e2 ->
  localName e2 = "canvas" ->
  let first := Download (id1 +:+ ".png") (data_url (InDoc id1) (log h)) in
  let second :=
    Download (id2 +:+ ".png") (data_url (InDoc id2) (log h ++ [first])%list) in
  (downloadChart data_url id1 ;; downloadChart data_url id2) h =
  (Normal JUndef,
   {| document := document h;
      detached :=
        detached h ++
        [{| localName := "a"; innerHTML := "";
            download := Some (id1 +:+ ".png");
            href := Some (data_url (InDoc id1) (log h)) |};
         {| localName := "a"; innerHTML := "";
            download := Some (id2 +:+ ".png");
            href := Some (data_url (InDoc id2) (log h ++ [first])%list) |}];
      log := log h ++ [first; second] |}).
Proof.
  intros H1 Hc1 H2 Hc2. cbn zeta.
  rewrite (bind_normal _ _ _ _ _ (downloadChart_on_canvas data_url _ _ _ H1 Hc1)).
  rewrite (downloadChart_on_canvas data_url id2 _ e2) by done.
  cbn [document detached log]. rewrite <- !app_assoc. reflexivity.
Qed.

Lemma downloadChart_twice_witness :
  (downloadChart constant_url "scatterPlot" ;;
   downloadChart constant_url "barChart") page =
  (Normal JUndef,
   {| document := document page;
      detached :=
        [{| localName := "a"; innerHTML := "";
            download := Some "scatterPlot.png";
            href := Some "data:image/png;base64," |};
         {| localName := "a"; innerHTML := "";
            download := Some "barChart.png";
            href := Some "data:image/png;base64," |}];
      log := [Download "scatterPlot.png" "data:image/png;base64,";
              Download "barChart.png" "data:image/png;base64,"] |}).
Proof.
  apply (downloadChart_twice constant_url "scatterPlot" "barChart" page
           (blank "canvas") (blank "canvas")); reflexivity.
Defined.

(** ** More on the template *)

(** The template reads as five labels, each followed by its control, in
    this order: Select Parameter (the dropdown), Preference (a group of
    two buttons, Prefer Higher Value and Prefer Lower Value), Min Value
    and Max Value (numeric inputs that declare no range) and Number of
    Companies (a numeric input).  Every tag that is opened is closed. *)
Theorem toolbar_labelled_controls :
  exists (forest : list Html.node),
    Html.parse toolbarHTML = Some forest
    /\ map Html.text_content (Html.elements_by_tag "label" forest)
       = ["Select Parameter"; "Preference"; "Min Value"; "Max Value";
          "Number of Companies"]
    /\ map Html.tag_of (List.filter Html.is_element forest)
       = ["label"; "select"; "label"; "div"; "label"; "input";
          "label"; "input"; "label"; "input"]
    /\ map (fun l => Html.tag_of <$> Html.control_for l forest)
           ["Select Parameter"; "Preference"; "Min Value"; "Max Value";
            "Number of Companies"]
       = [Some "select"; Some "div"; Some "input"; Some "input"; Some "input"]
    /\ (Html.child_elements <$> Html.control_for "Preference" forest)
       = Some (Html.elements_by_tag "button" forest)
    /\ map Html.text_content (Html.elements_by_tag "button" forest)
       = ["Prefer Higher Value"; "Prefer Lower Value"]
    /\ map (Html.attribute "type") (Html.elements_by_tag "input" forest)
       = [Some "number"; Some "number"; Some "number"]
    /\ map (fun l => Html.control_for l forest ≫= Html.declared_range)
           ["Min Value"; "Max Value"; "Number of Companies"]
       = [None; None; Some (1, 25)].
Proof.
  eexists. split; [vm_compute; reflexivity|].
  repeat split; vm_compute; reflexivity.
Qed.

(** No element of the template declares an [id], and the template has
    no [script] element: rendering it, in one container or in both, adds
    nothing that a lookup by id could find. *)
Theorem toolbar_declares_no_id :
  exists (forest : list Html.node),
    Html.parse toolbarHTML = Some forest
    /\ Forall (fun n => Html.attribute "id" n = None)
              (List.flat_map Html.subtree forest)
    /\ Html.elements_by_tag "script" forest = [].
Proof.
  eexists. split; [vm_compute; reflexivity|].
  split; [|vm_compute; reflexivity].
  vm_compute. repeat constructor.
Qed.
